(** * Camera quality score: [src/utils/cameraScore.js]

    A shallow embedding of [calculateCameraScore] and the properties of its
    score, label and detail list.

    JavaScript numbers are IEEE 754 binary64 values, so they are modelled by
    Rocq's primitive [float]; the decimal literals of the source ([1.77],
    [0.1], [3.5], ...) denote the same doubles here as they do there.  A
    property of the settings object that may be missing is an [option float],
    [None] standing for [undefined]. *)

From Stdlib Require Import Floats ZArith QArith Bool List String Ascii Lia.
From Stdlib Require Import Qminmax DecimalString.
Import ListNotations.

Set Warnings "-inexact-float".

Local Open Scope string_scope.
Local Open Scope float_scope.

(** ** The fragment of JavaScript the function uses *)

Module JS.

(** A number-valued property: [undefined] or a double. *)
Definition value := option float.

(** [ToNumber]: [undefined] becomes [NaN]. *)
Definition ToNumber (v : value) : float :=
  match v with
  | Some x => x
  | None => nan
  end.

(** [ToBoolean] on a number: [+0], [-0] and [NaN] are falsy. *)
Definition truthy (x : float) : bool := negb (is_nan x || is_zero x).

Definition ToBoolean (v : value) : bool :=
  match v with
  | Some x => truthy x
  | None => false
  end.

(** [v || d] where [d] is a number: the left operand when it is truthy,
    the right one otherwise. *)
Definition or_else (v : value) (d : float) : float :=
  match v with
  | Some x => if truthy x then x else d
  | None => d
  end.

(** [a >= b] and [a < b] on numbers; both are false when an operand is
    [NaN]. *)
Definition ge (a b : float) : bool := b <=? a.
Definition lt (a b : float) : bool := a <? b.

(** [a / b] on possibly missing operands. *)
Definition div (a b : value) : float := ToNumber a / ToNumber b.

Definition is_neg_zero (x : float) : bool :=
  match classify x with
  | NZero => true
  | _ => false
  end.

Definition is_pos_zero (x : float) : bool :=
  match classify x with
  | PZero => true
  | _ => false
  end.

(** [Math.min]: [NaN] if any argument is [NaN]; [-0] is below [+0]. *)
Definition min_step (lowest number : float) : float :=
  if is_nan lowest || is_nan number then nan
  else if is_neg_zero number && is_pos_zero lowest then PrimFloat.neg_zero
  else if number <? lowest then number
  else lowest.

Definition Math_min (args : list float) : float :=
  fold_left min_step args infinity.

(** [Math.max]: [NaN] if any argument is [NaN]; [+0] is above [-0]. *)
Definition max_step (highest number : float) : float :=
  if is_nan highest || is_nan number then nan
  else if is_pos_zero number && is_neg_zero highest then PrimFloat.zero
  else if highest <? number then number
  else highest.

Definition Math_max (args : list float) : float :=
  fold_left max_step args neg_infinity.

Definition Math_abs (x : float) : float := abs x.

(** *** [Number.prototype.toFixed] *)

Definition digits (n : Z) : string :=
  NilZero.string_of_uint (N.to_uint (Z.to_N n)).

Fixpoint zeros (k : nat) : string :=
  match k with
  | O => ""
  | S k' => String "0" (zeros k')
  end.

(** The decimal digits of [n] with a point before the last [f] of them,
    zero-padded on the left so that one digit precedes the point. *)
Definition place_point (n : Z) (f : nat) : string :=
  let m := digits n in
  match f with
  | O => m
  | S _ =>
      let k := String.length m in
      let m := if (k <=? f)%nat then zeros (f + 1 - k) ++ m else m in
      let k := String.length m in
      substring 0 (k - f) m ++ "." ++ substring (k - f) f m
  end.

(** [x.toFixed(f)].  A finite double is exactly [m * 2^e]; the integer [n]
    with [n / 10^f] nearest to it (the larger one on a tie) is
    [floor (m * 2^e * 10^f + 1/2)].  From [10^21] on the method hands over to
    the general number-to-string conversion with its exponent notation,
    which is not part of this model: the result is [None] there. *)
Definition toFixed (x : float) (f : nat) : option string :=
  match Prim2SF x with
  | S754_nan => Some "NaN"
  | S754_infinity s => Some (if s then "-Infinity" else "Infinity")
  | S754_zero _ => Some (place_point 0 f)
  | S754_finite s m e =>
      let num := (Zpos m * 2 ^ Z.max e 0)%Z in
      let den := (2 ^ Z.max (- e) 0)%Z in
      if (10 ^ 21 * den <=? num)%Z then None
      else
        let n := ((2 * num * 10 ^ Z.of_nat f + den) / (2 * den))%Z in
        Some ((if s then "-" else "") ++ place_point n f)
  end.

End JS.

(** ** Data model *)

(** The four properties of [MediaTrackSettings] the function reads. *)
Record CameraSettings : Set := {
  width : JS.value;
  height : JS.value;
  frameRate : JS.value;
  aspectRatio : JS.value
}.

(** The returned object.  Its [metrics] member holds three display strings
    built from the raw numbers; no property below concerns them and they are
    left out. *)
Record ScoreResult : Set := {
  score : string;
  label : string;
  details : list string
}.

(** ** [calculateCameraScore] *)

(** The two locals the body keeps updating: [score] and [details]. *)
Definition acc : Set := float * list string.

Definition bump (a : acc) (points : float) (detail : string) : acc :=
  (fst a + points, (snd a ++ [detail])%list).

(** [const resolution = height || 0;] *)
Definition resolutionOf (settings : CameraSettings) : float :=
  JS.or_else (height settings) 0.

(** [const fps = frameRate || 30;] *)
Definition fpsOf (settings : CameraSettings) : float :=
  JS.or_else (frameRate settings) 30.

(** [const ratio = aspectRatio || (width / height) || 1.77;] *)
Definition ratioOf (settings : CameraSettings) : float :=
  JS.or_else
    (Some (JS.or_else (aspectRatio settings)
                      (JS.div (width settings) (height settings))))
    1.77.

(** 1. Resolution score. *)
Definition resolutionScore (resolution : float) (a : acc) : acc :=
  if JS.ge resolution 1080 then bump a 5 "High Definition (1080p+)"
  else if JS.ge resolution 720 then bump a 3.5 "Standard HD (720p)"
  else if JS.ge resolution 480 then bump a 2 "Standard Definition (480p)"
  else bump a 1 "Low Resolution".

(** 2. Frame rate score. *)
Definition frameRateScore (fps : float) (a : acc) : acc :=
  if JS.ge fps 58 then bump a 3 "Smooth Motion (60fps)"
  else if JS.ge fps 28 then bump a 2 "Standard Motion (30fps)"
  else bump a 1 "Low Frame Rate".

(** 3. Aspect ratio. *)
Definition aspectRatioScore (ratio : float) (a : acc) : acc :=
  if JS.lt (JS.Math_abs (ratio - 1.77)) 0.1 then bump a 1 "Widescreen (16:9)"
  else bump a 0.5 "Standard Aspect Ratio".

(** Bonus for excellent quality. *)
Definition qualityBonus (resolution fps : float) (a : acc) : acc :=
  if JS.ge resolution 1080 && JS.ge fps 28
  then bump a 1 "Premium Quality Bonus"
  else a.

(** Lines 8 to 60: [score] and [details] after the three graded parts. *)
Definition beforeBonus (settings : CameraSettings) : acc :=
  let a : acc := (0, []) in
  let resolution := resolutionOf settings in
  let a := resolutionScore resolution a in
  let fps := fpsOf settings in
  let a := frameRateScore fps a in
  let ratio := ratioOf settings in
  aspectRatioScore ratio a.

(** Lines 8 to 66: [score] and [details] as they stand before the clamp. *)
Definition accumulate (settings : CameraSettings) : acc :=
  qualityBonus (resolutionOf settings) (fpsOf settings) (beforeBonus settings).

(** [score = Math.min(10, score); score = Math.max(1, score);] *)
Definition clamp (score : float) : float :=
  let score := JS.Math_min [10; score] in
  JS.Math_max [1; score].

(** Determine label. *)
Definition labelOf (score : float) : string :=
  if JS.ge score 9 then "Excellent"
  else if JS.ge score 7 then "Good"
  else if JS.ge score 5 then "Average"
  else if JS.ge score 3 then "Fair"
  else "Poor".

Definition calculateCameraScore (settings : CameraSettings)
  : option ScoreResult :=
  let '(score, details) := accumulate settings in
  let score := clamp score in
  let label := labelOf score in
  match JS.toFixed score 1 with
  | Some text => Some {| score := text; label := label; details := details |}
  | None => None
  end.

Definition settings_of (w h f r : JS.value) : CameraSettings :=
  {| width := w; height := h; frameRate := f; aspectRatio := r |}.


(** ** The behaviour the specification describes *)

Module Spec.

(** "[v >= c]" for a property that may be absent: an absent property is at
    least nothing. *)
Definition at_least (v : JS.value) (c : float) : bool :=
  match v with
  | Some x => c <=? x
  | None => false
  end.

(** Resolution component: 1, 2, 3.5 or 5 by the thresholds 480, 720, 1080
    on [height]. *)
Definition resolution_component (s : CameraSettings) : Q :=
  if at_least (height s) 1080 then 5
  else if at_least (height s) 720 then 3.5
  else if at_least (height s) 480 then 2
  else 1.

(** The effective frame rate: 30 when [frameRate] is not reported, which
    covers a missing property and, as in the specification's example
    [{height: 0, frameRate: 0}], a reported [0] or [NaN]. *)
Definition effective_frameRate (s : CameraSettings) : float :=
  match frameRate s with
  | Some f => if is_nan f || is_zero f then 30 else f
  | None => 30
  end.

(** Frame-rate component: 1, 2 or 3 by the thresholds 28 and 58. *)
Definition frameRate_component (fps : float) : Q :=
  if 58 <=? fps then 3
  else if 28 <=? fps then 2
  else 1.

(** A number that can stand as the ratio: neither [0] nor [NaN]. *)
Definition usable (x : float) : bool := negb (is_nan x) && negb (is_zero x).

(** The ratio: [aspectRatio], else [width / height], else 1.77. *)
Definition ratio (s : CameraSettings) : float :=
  let quotient := JS.ToNumber (width s) / JS.ToNumber (height s) in
  let fallback := if usable quotient then quotient else 1.77 in
  match aspectRatio s with
  | Some r => if usable r then r else fallback
  | None => fallback
  end.

(** Aspect-ratio component: 1.0 when [|ratio - 1.77| < 0.1], else 0.5. *)
Definition aspect_component (s : CameraSettings) : Q :=
  if abs (ratio s - 1.77) <? 0.1 then 1 else 0.5.

(** The bonus: 1 exactly when [height >= 1080] and the frame rate is at
    least 28. *)
Definition bonus (fps : float) (s : CameraSettings) : Q :=
  if at_least (height s) 1080 && (28 <=? fps) then 1 else 0.

Definition clamp (q : Q) : Q := Qmin 10 (Qmax 1 q).

(** The total for a given reading [fps] of the frame rate. *)
Definition total_with (fps : float) (s : CameraSettings) : Q :=
  clamp (resolution_component s + frameRate_component fps
         + aspect_component s + bonus fps s).

Definition total (s : CameraSettings) : Q :=
  total_with (effective_frameRate s) s.

(** A non-negative rational written with one decimal place. *)
Definition one_decimal (q : Q) : string :=
  let tenths := ((2 * 10 * Qnum q + Zpos (Qden q)) / (2 * Zpos (Qden q)))%Z in
  JS.digits (tenths / 10) ++ "." ++ JS.digits (tenths mod 10).

(** The value of a decimal numeral [ddd] or [ddd.ddd]. *)
Definition digit_of (c : ascii) : option Z :=
  let n := nat_of_ascii c in
  if ((48 <=? n) && (n <=? 57))%nat then Some (Z.of_nat (n - 48)) else None.

Fixpoint digits_value (s : string) (sofar : Z) : option Z :=
  match s with
  | EmptyString => Some sofar
  | String c rest =>
      match digit_of c with
      | Some d => digits_value rest (10 * sofar + d)
      | None => None
      end
  end.

Definition number_of (s : string) : option Q :=
  match index 0 "." s with
  | None =>
      match s with
      | EmptyString => None
      | _ => option_map inject_Z (digits_value s 0)
      end
  | Some i =>
      let whole := substring 0 i s in
      let frac := substring (i + 1) (String.length s - (i + 1)) s in
      match whole, frac, digits_value (whole ++ frac) 0 with
      | String _ _, String _ _, Some n =>
          Some (Qmake n (Pos.pow 10 (Pos.of_nat (String.length frac))))
      | _, _, _ => None
      end
  end.

(** The label for a score. *)
Definition label_for (q : Q) : string :=
  if Qle_bool 9 q then "Excellent"
  else if Qle_bool 7 q then "Good"
  else if Qle_bool 5 q then "Average"
  else if Qle_bool 3 q then "Fair"
  else "Poor".

(** The entries a detail list is made of. *)
Definition resolution_entries : list string :=
  ["High Definition (1080p+)"; "Standard HD (720p)";
   "Standard Definition (480p)"; "Low Resolution"].

Definition frameRate_entries : list string :=
  ["Smooth Motion (60fps)"; "Standard Motion (30fps)"; "Low Frame Rate"].

Definition aspect_entries : list string :=
  ["Widescreen (16:9)"; "Standard Aspect Ratio"].

(** The bonus entry, present exactly when [height >= 1080] and the
    effective frame rate is at least 28. *)
Definition bonus_entries (s : CameraSettings) : list string :=
  if at_least (height s) 1080 && (28 <=? effective_frameRate s)
  then ["Premium Quality Bonus"]
  else [].

End Spec.

(** [calculateCameraScore settings] returns an object that satisfies [P]. *)
Definition returns (settings : CameraSettings) (P : ScoreResult -> Prop) : Prop :=
  exists r, calculateCameraScore settings = Some r /\ P r.

(** ** The [metrics] strings that [toFixed] produces (lines 86 and 87) *)

(** [frameRate: `${fps ? fps.toFixed(0) : 'N/A'} fps`], below [10^21] *)
Definition metricsFrameRate (settings : CameraSettings) : option string :=
  let fps := fpsOf settings in
  if JS.truthy fps
  then option_map (fun text => text ++ " fps") (JS.toFixed fps 0)
  else Some ("N/A" ++ " fps").

(** [aspectRatio: ratio.toFixed(2)] *)
Definition metricsAspectRatio (settings : CameraSettings) : option string :=
  JS.toFixed (ratioOf settings) 2.

(** ** [toFixed] from [10^21] on, and the frame-rate metric in full *)

Module NumberText.

(** Whether the real [v] is rounded to the double [m * 2^e]: it lies within
    half a step of it (a quarter below a power of two), the ends included
    when [m] is even. *)
Definition rounds_to (m : positive) (e v : Z) : bool :=
  let x4 := (4 * Zpos m * 2 ^ e)%Z in
  let up := (2 * 2 ^ e)%Z in
  let down := (if Zpos m =? 2 ^ 52 then 2 ^ e else 2 * 2 ^ e)%Z in
  if Z.even (Zpos m)
  then ((x4 - down <=? 4 * v) && (4 * v <=? x4 + up))%Z
  else ((x4 - down <? 4 * v) && (4 * v <? x4 + up))%Z.

(** The integer with the fewest significant digits that is rounded to
    [x = m * 2^e], an integer of [size] digits; of two candidates with [k]
    digits the one nearer to [x]. *)
Fixpoint shortest (fuel k : nat) (m : positive) (e x : Z) (size : nat) : Z :=
  match fuel with
  | O => x
  | S fuel' =>
      let p := (10 ^ (Z.of_nat size - Z.of_nat k))%Z in
      let below := (x / p * p)%Z in
      let above := (below + p)%Z in
      match rounds_to m e below, rounds_to m e above with
      | true, true =>
          if (x - below <? above - x)%Z then below
          else if (above - x <? x - below)%Z then above
          else if Z.even (x / p) then below else above
      | true, false => below
      | false, true => above
      | false, false => shortest fuel' (S k) m e x size
      end
  end.

(** A numeral without its trailing zeros. *)
Fixpoint strip (s : string) : string :=
  match s with
  | EmptyString => EmptyString
  | String c rest =>
      match strip rest with
      | EmptyString =>
          if (c =? "0")%char then EmptyString else String c EmptyString
      | kept => String c kept
      end
  end.

(** The number-to-string conversion of a double [m * 2^e >= 10^21]: the
    shortest digits that identify it, a point after the first one, and the
    decimal exponent, as in "1e+21" and "1.1805916207174113e+21". *)
Definition exponent_notation (m : positive) (e : Z) : string :=
  let x := (Zpos m * 2 ^ e)%Z in
  let size := String.length (JS.digits x) in
  let all := JS.digits (shortest size 1 m e x size) in
  let n := String.length all in
  match strip all with
  | EmptyString => all
  | String c EmptyString =>
      String c ("e+" ++ JS.digits (Z.of_nat n - 1))
  | String c rest =>
      String c ("." ++ rest ++ "e+" ++ JS.digits (Z.of_nat n - 1))
  end.

(** [x.toFixed(f)] for every double: [JS.toFixed] where that is defined, the
    sign and the exponent notation from [10^21] on. *)
Definition toFixedAll (x : float) (f : nat) : string :=
  match Prim2SF x with
  | S754_nan => "NaN"
  | S754_infinity s => if s then "-Infinity" else "Infinity"
  | S754_zero _ => JS.place_point 0 f
  | S754_finite s m e =>
      let num := (Zpos m * 2 ^ Z.max e 0)%Z in
      let den := (2 ^ Z.max (- e) 0)%Z in
      (if s then "-" else "") ++
      (if (10 ^ 21 * den <=? num)%Z then exponent_notation m e
       else JS.place_point
              ((2 * num * 10 ^ Z.of_nat f + den) / (2 * den)) f)
  end.

End NumberText.

(** [frameRate: `${fps ? fps.toFixed(0) : 'N/A'} fps`], for every frame
    rate. *)
Definition frameRateMetric (settings : CameraSettings) : string :=
  let fps := fpsOf settings in
  (if JS.truthy fps then NumberText.toFixedAll fps 0 else "N/A") ++ " fps".

(** ** The score colour of [App.jsx] (lines 125 and 126) *)

Module View.

(** The value of one decimal digit. *)
Definition digit (c : ascii) : option Z :=
  let n := nat_of_ascii c in
  if ((48 <=? n) && (n <=? 57))%nat then Some (Z.of_nat n - 48)%Z else None.

Fixpoint numeral (s : string) (sofar : Z) : option Z :=
  match s with
  | EmptyString => Some sofar
  | String c rest =>
      match digit c with
      | Some d => numeral rest (10 * sofar + d)
      | None => None
      end
  end.

(** An integer below [2^53] as a double; the conversion is exact there. *)
Definition of_small (n : Z) : float := of_uint63 (Uint63.of_Z n).

(** [StringToNumber] on a numeral [ddd] or [ddd.ddd]: the double nearest to
    [n / 10^k], where [n] is the numeral without its point and [k] the number
    of digits after it.  With [n < 2^53] and [k <= 15] both operands are
    exact doubles and their IEEE quotient is that nearest double.  Other
    strings (signs, exponents, blanks, longer numerals) are outside this
    model: the result is [None] there. *)
Definition StringToNumber (s : string) : option float :=
  match index 0 "." s with
  | None =>
      match s, numeral s 0 with
      | String _ _, Some n =>
          if (n <? 2 ^ 53)%Z then Some (of_small n) else None
      | _, _ => None
      end
  | Some i =>
      let whole := substring 0 i s in
      let frac := substring (i + 1) (String.length s - (i + 1)) s in
      match whole, frac, numeral (whole ++ frac) 0 with
      | String _ _, String _ _, Some n =>
          if ((n <? 2 ^ 53)%Z && (String.length frac <=? 15)%nat)%bool
          then Some (of_small n
                     / of_small (10 ^ Z.of_nat (String.length frac)))
          else None
      | _, _, _ => None
      end
  end.

(** [result.score >= 7 ? '#10b981' : result.score >= 4 ? '#f59e0b' :
    '#ef4444'], the string [result.score] being converted to a number by
    [>=]. *)
Definition scoreColor (score : string) : option string :=
  match StringToNumber score with
  | Some x =>
      Some (if JS.ge x 7 then "#10b981"
            else if JS.ge x 4 then "#f59e0b"
            else "#ef4444")
  | None => None
  end.

End View.

(** ** Vocabulary for the properties of the whole function *)

(** The points each [details.push] goes with in the source. *)
Definition pointsFor (detail : string) : Q :=
  if (detail =? "High Definition (1080p+)")%string then 5
  else if (detail =? "Standard HD (720p)")%string then 3.5
  else if (detail =? "Standard Definition (480p)")%string then 2
  else if (detail =? "Low Resolution")%string then 1
  else if (detail =? "Smooth Motion (60fps)")%string then 3
  else if (detail =? "Standard Motion (30fps)")%string then 2
  else if (detail =? "Low Frame Rate")%string then 1
  else if (detail =? "Widescreen (16:9)")%string then 1
  else if (detail =? "Standard Aspect Ratio")%string then 0.5
  else if (detail =? "Premium Quality Bonus")%string then 1
  else 0.

Definition pointsTotal (details : list string) : Q :=
  fold_right (fun detail sum => pointsFor detail + sum)%Q 0%Q details.

(** The rational a finite double is. *)
Definition exact (x : float) : option Q :=
  match Prim2SF x with
  | S754_zero _ => Some 0%Q
  | S754_finite s m e =>
      Some ((if s then -1 else 1) * inject_Z (Zpos m) * 2 ^ e)%Q
  | S754_infinity _ | S754_nan => None
  end.

(** The returned score read back as a number. *)
Definition scoreValue (settings : CameraSettings) : option Q :=
  match calculateCameraScore settings with
  | Some r => Spec.number_of (score r)
  | None => None
  end.

(** The same settings with another frame rate, height or width. *)
Definition withFrameRate (s : CameraSettings) (f : float) : CameraSettings :=
  {| width := width s; height := height s;
     frameRate := Some f; aspectRatio := aspectRatio s |}.

Definition withHeight (s : CameraSettings) (h : float) : CameraSettings :=
  {| width := width s; height := Some h;
     frameRate := frameRate s; aspectRatio := aspectRatio s |}.

Definition withWidth (s : CameraSettings) (w : JS.value) : CameraSettings :=
  {| width := w; height := height s;
     frameRate := frameRate s; aspectRatio := aspectRatio s |}.

(** Every score the function can return. *)
Definition possibleScores : list string :=
  ["2.5"; "3.0"; "3.5"; "4.0"; "4.5"; "5.0"; "5.5"; "6.0"; "6.5"; "7.0";
   "7.5"; "8.5"; "9.0"; "9.5"; "10.0"].

(** ** Facts about doubles *)

Section FloatFacts.

Lemma SFeqb_finite_refl (s : bool) (m : positive) (e : Z) :
  SFeqb (S754_finite s m e) (S754_finite s m e) = true.
Proof.
  unfold SFeqb, SFcompare.
  rewrite Z.compare_refl.
  assert (Hm : Pos.compare_cont Eq m m = Eq) by apply Pos.compare_refl.
  rewrite Hm. destruct s; reflexivity.
Qed.

(** Truthiness read off the decoded double. *)
Lemma truthy_spec (x : float) :
  JS.truthy x =
  match Prim2SF x with
  | S754_nan | S754_zero _ => false
  | S754_infinity _ | S754_finite _ _ _ => true
  end.
Proof.
  unfold JS.truthy, is_nan, is_zero.
  rewrite !FloatAxioms.eqb_spec.
  change (Prim2SF PrimFloat.zero) with (S754_zero false).
  destruct (Prim2SF x) as [s | s | | s m e].
  - reflexivity.
  - destruct s; reflexivity.
  - reflexivity.
  - rewrite SFeqb_finite_refl. destruct s; reflexivity.
Qed.

(** A falsy number is not at least a positive threshold. *)
Lemma falsy_below (c x : float) :
  (c <=? 0) = false -> JS.truthy x = false -> (c <=? x) = false.
Proof.
  rewrite truthy_spec, !FloatAxioms.leb_spec.
  change (Prim2SF 0) with (S754_zero false).
  destruct (Prim2SF x) as [s | s | | s m e]; try discriminate; intros Hc _.
  - destruct (Prim2SF c) as [sc | sc | | sc mc ec]; exact Hc.
  - destruct (Prim2SF c) as [sc | sc | | sc mc ec]; reflexivity.
Qed.

(** [v || d] against a positive threshold the default does not reach. *)
Lemma or_else_at_least (v : JS.value) (d c : float) :
  (c <=? 0) = false -> (c <=? d) = false ->
  JS.ge (JS.or_else v d) c = Spec.at_least v c.
Proof.
  intros Hc Hd. unfold JS.ge, JS.or_else, Spec.at_least.
  destruct v as [x |]; [| exact Hd].
  destruct (JS.truthy x) eqn:Hx; [reflexivity |].
  rewrite Hd. symmetry. now apply falsy_below.
Qed.

(** A number at least a positive threshold is truthy, so [||] keeps it. *)
Lemma or_else_keeps (x d c : float) :
  (c <=? 0) = false -> (c <=? x) = true -> JS.or_else (Some x) d = x.
Proof.
  intros Hc Hx. unfold JS.or_else.
  destruct (JS.truthy x) eqn:Ht; [reflexivity |].
  rewrite (falsy_below c x Hc Ht) in Hx. discriminate.
Qed.

Lemma usable_truthy (x : float) : Spec.usable x = JS.truthy x.
Proof.
  unfold Spec.usable, JS.truthy. now rewrite negb_orb.
Qed.

Lemma is_zero_spec (h : float) :
  is_zero h = true -> exists sh, Prim2SF h = S754_zero sh.
Proof.
  unfold is_zero. rewrite FloatAxioms.eqb_spec.
  change (Prim2SF PrimFloat.zero) with (S754_zero false).
  destruct (Prim2SF h) as [s | s | | s m e].
  - intros _. now exists s.
  - destruct s; discriminate.
  - discriminate.
  - destruct s; discriminate.
Qed.

(** Division by zero: an infinity for a truthy dividend, [NaN] for a
    falsy one. *)
Lemma div_by_zero (x h : float) :
  is_zero h = true ->
  if JS.truthy x
  then x / h = infinity \/ x / h = neg_infinity
  else x / h = nan.
Proof.
  intros Hz. destruct (is_zero_spec h Hz) as [sh Hh].
  rewrite truthy_spec.
  rewrite <- (SF2Prim_Prim2SF (x / h)), div_spec, Hh.
  destruct (Prim2SF x) as [s | s | | s m e]; cbn.
  - reflexivity.
  - destruct (xorb s sh); [right | left]; reflexivity.
  - reflexivity.
  - destruct (xorb s sh); [right | left]; reflexivity.
Qed.

Lemma ToBoolean_ToNumber (v : JS.value) :
  JS.ToBoolean v = JS.truthy (JS.ToNumber v).
Proof.
  destruct v; reflexivity.
Qed.

End FloatFacts.

(** ** The code against the specification's reading *)

Lemma resolutionOf_at_least (s : CameraSettings) (c : float) :
  (c <=? 0) = false ->
  JS.ge (resolutionOf s) c = Spec.at_least (height s) c.
Proof.
  intros Hc. now apply or_else_at_least.
Qed.

Lemma fpsOf_effective (s : CameraSettings) :
  fpsOf s = Spec.effective_frameRate s.
Proof.
  unfold fpsOf, Spec.effective_frameRate, JS.or_else, JS.truthy.
  destruct (frameRate s) as [f |]; [| reflexivity].
  now destruct (is_nan f || is_zero f).
Qed.

Lemma ratioOf_ratio (s : CameraSettings) : ratioOf s = Spec.ratio s.
Proof.
  unfold ratioOf, Spec.ratio, JS.div, JS.or_else.
  rewrite !usable_truthy.
  set (q := JS.ToNumber (width s) / JS.ToNumber (height s)).
  destruct (aspectRatio s) as [r |].
  - rewrite usable_truthy. destruct (JS.truthy r) eqn:Hr.
    + now rewrite Hr.
    + reflexivity.
  - reflexivity.
Qed.

(** The spec-side conditions rewritten to the conditions the code tests. *)
Lemma spec_conditions (s : CameraSettings) :
  Spec.at_least (height s) 1080 = JS.ge (resolutionOf s) 1080 /\
  Spec.at_least (height s) 720 = JS.ge (resolutionOf s) 720 /\
  Spec.at_least (height s) 480 = JS.ge (resolutionOf s) 480 /\
  Spec.effective_frameRate s = fpsOf s /\
  Spec.ratio s = ratioOf s.
Proof.
  repeat split; symmetry;
    first [ now apply resolutionOf_at_least
          | apply fpsOf_effective
          | apply ratioOf_ratio ].
Qed.

(** Case analysis on the six comparisons the body makes; every case is a
    closed computation. *)
Ltac to_code_conditions s :=
  let H1 := fresh in let H2 := fresh in let H3 := fresh in
  let H4 := fresh in let H5 := fresh in
  destruct (spec_conditions s) as (H1 & H2 & H3 & H4 & H5);
  rewrite ?H1, ?H2, ?H3, ?H4, ?H5; clear H1 H2 H3 H4 H5.

Ltac unfold_body :=
  unfold returns, calculateCameraScore, accumulate, beforeBonus,
    qualityBonus, aspectRatioScore, frameRateScore, resolutionScore,
    JS.ge, JS.lt, JS.Math_abs.

Ltac split_comparisons s :=
  generalize (resolutionOf s) (fpsOf s) (ratioOf s);
  intros resolution fps ratio;
  destruct (1080 <=? resolution), (720 <=? resolution), (480 <=? resolution),
    (58 <=? fps), (28 <=? fps), (abs (ratio - 1.77) <? 0.1).

(** Run the call in a case where every comparison is decided. *)
Ltac run_call :=
  unfold returns;
  match goal with
  | |- exists r, ?call = Some r /\ _ =>
      let v := eval vm_compute in call in
      match v with
      | Some ?r => exists r; split; [vm_compute; reflexivity | cbv beta]
      end
  end.

(** C1: the returned score is the resolution component plus the
    frame-rate component plus the aspect-ratio component plus the bonus,
    clamped to [1, 10] and written with one decimal place.  The frame rate
    defaults to 30 and the ratio falls back from [aspectRatio] to
    [width / height] to 1.77 whenever the value at hand is missing, 0 or
    NaN. *)
Theorem score_is_clamped_sum (s : CameraSettings) :
  returns s (fun r => score r = Spec.one_decimal (Spec.total s)).
Proof.
  unfold Spec.total, Spec.total_with, Spec.resolution_component,
    Spec.frameRate_component, Spec.aspect_component, Spec.bonus.
  to_code_conditions s. unfold_body. split_comparisons s.
  all: run_call; vm_compute; reflexivity.
Qed.

(** The call always returns: the number given to [toFixed] is never one it
    cannot format. *)
Lemma calculateCameraScore_total (s : CameraSettings) :
  returns s (fun _ => True).
Proof.
  unfold_body. split_comparisons s.
  all: run_call; exact I.
Qed.

Ltac read_score :=
  match goal with
  | |- exists q, Spec.number_of ?text = Some q /\ _ =>
      let v := eval vm_compute in (Spec.number_of text) in
      match v with
      | Some ?q => exists q; split; [vm_compute; reflexivity |]
      end
  end.

Ltac Qle_by_computation :=
  match goal with
  | |- (_ <= _)%Q => unfold Qle; vm_compute; discriminate
  end.

(** C2: the returned score, read back as a number, lies in [1, 10]; so does
    the number before it is formatted. *)
Theorem score_in_range (s : CameraSettings) :
  returns s (fun r =>
    exists q, Spec.number_of (score r) = Some q /\ (1 <= q)%Q /\ (q <= 10)%Q)
  /\ (1 <=? clamp (fst (accumulate s))) = true
  /\ (clamp (fst (accumulate s)) <=? 10) = true.
Proof.
  unfold_body. split_comparisons s.
  all: split; [| split; reflexivity].
  all: run_call; read_score; split; Qle_by_computation.
Qed.

(** ** Worked examples *)

(** C3 (amended): [{width: 640, height: 480, frameRate: 30}] scores 2 for
    the resolution, 2 for the frame rate and 0.5 for the ratio
    [640 / 480 = 1.33], 4.5 in total, and the label is "Fair". *)
Theorem vga_at_30_is_fair :
  let s := settings_of (Some 640) (Some 480) (Some 30) None in
  resolutionScore (resolutionOf s) (0, []) = (2, ["Standard Definition (480p)"])
  /\ frameRateScore (fpsOf s) (0, []) = (2, ["Standard Motion (30fps)"])
  /\ ratioOf s = 640 / 480
  /\ JS.toFixed (ratioOf s) 2 = Some "1.33"
  /\ aspectRatioScore (ratioOf s) (0, []) = (0.5, ["Standard Aspect Ratio"])
  /\ fst (accumulate s) = 4.5
  /\ calculateCameraScore s =
       Some {| score := "4.5";
               label := "Fair";
               details := ["Standard Definition (480p)";
                           "Standard Motion (30fps)";
                           "Standard Aspect Ratio"] |}.
Proof.
  repeat split; vm_compute; reflexivity.
Qed.

(** C3, as stated, fails: the label for 4.5 is not "Average". *)
Lemma vga_at_30_is_not_average :
  let s := settings_of (Some 640) (Some 480) (Some 30) None in
  option_map score (calculateCameraScore s) = Some "4.5" /\
  option_map label (calculateCameraScore s) = Some "Fair" /\
  ~ returns s (fun r => label r = "Average").
Proof.
  cbv zeta. split; [reflexivity |]. split; [reflexivity |].
  intros (r & Hr & Hl).
  vm_compute in Hr. injection Hr as <-.
  vm_compute in Hl. discriminate Hl.
Qed.

(** C5: [{height: 0, frameRate: 0}] takes the defaults: 30 frames per
    second for 2 points, "Low Resolution" for 1 point, and the ratio 1.77
    because [width / height] is NaN. *)
Theorem zero_height_zero_rate_defaults :
  let s := settings_of None (Some 0) (Some 0) None in
  fpsOf s = 30
  /\ frameRateScore (fpsOf s) (0, []) = (2, ["Standard Motion (30fps)"])
  /\ resolutionScore (resolutionOf s) (0, []) = (1, ["Low Resolution"])
  /\ is_nan (JS.div (width s) (height s)) = true
  /\ ratioOf s = 1.77
  /\ calculateCameraScore s =
       Some {| score := "4.0";
               label := "Fair";
               details := ["Low Resolution";
                           "Standard Motion (30fps)";
                           "Widescreen (16:9)"] |}.
Proof.
  repeat split; vm_compute; reflexivity.
Qed.

(** C8: [{width: 1920, height: 1080, frameRate: 60, aspectRatio: 1.777}]
    returns the score "10.0" and the label "Excellent". *)
Theorem full_hd_at_60_is_excellent :
  returns (settings_of (Some 1920) (Some 1080) (Some 60) (Some 1.777))
    (fun r => score r = "10.0" /\ label r = "Excellent").
Proof.
  run_call. split; reflexivity.
Qed.

(** ** Properties of every call *)

(** C6: the label is the one the thresholds 9, 7, 5 and 3 give for the
    returned score, each threshold included: scores of exactly 9, 7, 5 and 3
    are labelled "Excellent", "Good", "Average" and "Fair". *)
Theorem label_follows_thresholds (s : CameraSettings) :
  returns s (fun r =>
    exists q, Spec.number_of (score r) = Some q /\ label r = Spec.label_for q)
  /\ returns (settings_of (Some 1920) (Some 1080) (Some 30) (Some 1.777))
       (fun r => score r = "9.0" /\ label r = "Excellent")
  /\ returns (settings_of (Some 1280) (Some 720) (Some 60) (Some 1.33))
       (fun r => score r = "7.0" /\ label r = "Good")
  /\ returns (settings_of (Some 854) (Some 480) (Some 30) (Some 1.77))
       (fun r => score r = "5.0" /\ label r = "Average")
  /\ returns (settings_of (Some 426) (Some 240) (Some 15) (Some 1.77))
       (fun r => score r = "3.0" /\ label r = "Fair").
Proof.
  split.
  - unfold_body. split_comparisons s.
    all: run_call; read_score; vm_compute; reflexivity.
  - repeat split; run_call; split; reflexivity.
Qed.

(** C10: each graded part adds at least 1, 1 and 0.5 points, so before the
    clamp the score is at least 2.5, the floor [Math.max(1, score)] leaves it
    as it is, and the returned score is never below 2.5. *)
Theorem floor_clamp_is_idle (s : CameraSettings) :
  (forall x, (1 <=? fst (resolutionScore x (0, []))) = true)
  /\ (forall x, (1 <=? fst (frameRateScore x (0, []))) = true)
  /\ (forall x, (0.5 <=? fst (aspectRatioScore x (0, []))) = true)
  /\ (2.5 <=? fst (accumulate s)) = true
  /\ clamp (fst (accumulate s)) = JS.Math_min [10; fst (accumulate s)]
  /\ returns s (fun r =>
       exists q, Spec.number_of (score r) = Some q /\ (2.5 <= q)%Q).
Proof.
  split; [| split; [| split]].
  - intros x. unfold resolutionScore, JS.ge.
    now destruct (1080 <=? x), (720 <=? x), (480 <=? x).
  - intros x. unfold frameRateScore, JS.ge.
    now destruct (58 <=? x), (28 <=? x).
  - intros x. unfold aspectRatioScore, JS.lt, JS.Math_abs.
    now destruct (abs (x - 1.77) <? 0.1).
  - unfold_body. split_comparisons s.
    all: split; [reflexivity | split; [reflexivity |]].
    all: run_call; read_score; Qle_by_computation.
Qed.

(** C9: the detail list is one resolution entry, one frame-rate entry and
    one aspect-ratio entry, in this order, followed by "Premium Quality
    Bonus" exactly when [height >= 1080] and the effective frame rate is at
    least 28; it has 3 or 4 entries. *)
Theorem details_shape (s : CameraSettings) :
  returns s (fun r =>
    (exists res rate aspect,
        details r = (res :: rate :: aspect :: Spec.bonus_entries s)%list
        /\ In res Spec.resolution_entries
        /\ In rate Spec.frameRate_entries
        /\ In aspect Spec.aspect_entries)
    /\ (List.length (details r) = 3%nat \/ List.length (details r) = 4%nat)).
Proof.
  unfold Spec.bonus_entries.
  to_code_conditions s. unfold_body. split_comparisons s.
  all: run_call; cbn [details andb]; split;
    [| (left; reflexivity) || (right; reflexivity)].
  all: match goal with
       | |- exists res rate aspect, (?a :: ?b :: ?c :: _)%list = _ /\ _ =>
           exists a, b, c
       end.
  all: split; [reflexivity | cbn; tauto].
Qed.

(** C7: when [height >= 1080] and [frameRate >= 28] the bonus point is added
    to what the three graded parts gave, "Premium Quality Bonus" is recorded,
    and the returned total is that sum capped at 10. *)
Theorem premium_bonus_applied (s : CameraSettings) (h f : float) :
  height s = Some h -> (1080 <=? h) = true ->
  frameRate s = Some f -> (28 <=? f) = true ->
  accumulate s = bump (beforeBonus s) 1 "Premium Quality Bonus"
  /\ (clamp (fst (accumulate s)) <=? 10) = true
  /\ returns s (fun r =>
       In "Premium Quality Bonus" (details r)
       /\ score r =
            Spec.one_decimal
              (Qmin 10 (Spec.resolution_component s
                        + Spec.frameRate_component f
                        + Spec.aspect_component s + 1))
       /\ exists q, Spec.number_of (score r) = Some q /\ (q <= 10)%Q).
Proof.
  intros Hh Hh1080 Hf Hf28.
  assert (Hres : (1080 <=? resolutionOf s) = true).
  { unfold resolutionOf. rewrite Hh.
    now rewrite (or_else_keeps h 0 1080). }
  assert (Hfps : fpsOf s = f).
  { unfold fpsOf. rewrite Hf. now apply (or_else_keeps f 30 28). }
  rewrite <- Hfps in Hf28 |- *. clear Hh Hh1080 Hf Hfps h f.
  revert Hres Hf28.
  unfold Spec.resolution_component, Spec.frameRate_component,
    Spec.aspect_component.
  to_code_conditions s. unfold_body. split_comparisons s.
  all: intros Hres Hf28; try discriminate Hres; try discriminate Hf28.
  all: split; [reflexivity | split; [reflexivity |]].
  all: run_call; split; [cbn; tauto | split; [vm_compute; reflexivity |]].
  all: read_score; Qle_by_computation.
Qed.

(** The bonus at [{width: 1920, height: 1080, frameRate: 60,
    aspectRatio: 1.777}]. *)
Lemma premium_bonus_applied_witness :
  let s := settings_of (Some 1920) (Some 1080) (Some 60) (Some 1.777) in
  accumulate s = bump (beforeBonus s) 1 "Premium Quality Bonus"
  /\ (clamp (fst (accumulate s)) <=? 10) = true
  /\ returns s (fun r =>
       In "Premium Quality Bonus" (details r)
       /\ score r =
            Spec.one_decimal
              (Qmin 10 (Spec.resolution_component s
                        + Spec.frameRate_component 60
                        + Spec.aspect_component s + 1))
       /\ exists q, Spec.number_of (score r) = Some q /\ (q <= 10)%Q).
Proof.
  apply (premium_bonus_applied
           (settings_of (Some 1920) (Some 1080) (Some 60) (Some 1.777))
           1080 60); reflexivity.
Defined.

(** ** A reported height of zero *)

(** C4 (amended): with [aspectRatio] absent and [height] zero, a width that
    is absent, 0 or NaN makes [width / height] NaN, which the falsy check
    catches: the ratio is the default 1.77 and the aspect-ratio part is the
    "Widescreen (16:9)" point.  Any other width makes [width / height] an
    infinity, which is kept, fails the widescreen test and gets the
    0.5 points of "Standard Aspect Ratio". *)
Theorem zero_height_ratio (s : CameraSettings) (h : float) :
  aspectRatio s = None -> height s = Some h -> is_zero h = true ->
  if JS.ToBoolean (width s)
  then is_infinity (JS.div (width s) (height s)) = true
       /\ ratioOf s = JS.div (width s) (height s)
       /\ forall a, aspectRatioScore (ratioOf s) a
                    = bump a 0.5 "Standard Aspect Ratio"
  else is_nan (JS.div (width s) (height s)) = true
       /\ ratioOf s = 1.77
       /\ forall a, aspectRatioScore (ratioOf s) a
                    = bump a 1 "Widescreen (16:9)".
Proof.
  intros Hr Hh Hz.
  unfold ratioOf, JS.div. rewrite Hr, Hh, ToBoolean_ToNumber. cbn [JS.ToNumber].
  pose proof (div_by_zero (JS.ToNumber (width s)) h Hz) as Hdiv.
  unfold JS.or_else at 2.
  destruct (JS.truthy (JS.ToNumber (width s))).
  - destruct Hdiv as [-> | ->]; repeat split.
  - rewrite Hdiv. repeat split.
Qed.

(** Both cases at a height of 0: a width of 640 and no width at all. *)
Lemma zero_height_ratio_witness :
  let wide := settings_of (Some 640) (Some 0) None None in
  let bare := settings_of None (Some 0) None None in
  (is_infinity (JS.div (width wide) (height wide)) = true
   /\ ratioOf wide = JS.div (width wide) (height wide)
   /\ forall a, aspectRatioScore (ratioOf wide) a
                = bump a 0.5 "Standard Aspect Ratio")
  /\ (is_nan (JS.div (width bare) (height bare)) = true
      /\ ratioOf bare = 1.77
      /\ forall a, aspectRatioScore (ratioOf bare) a
                   = bump a 1 "Widescreen (16:9)").
Proof.
  split.
  - apply (zero_height_ratio (settings_of (Some 640) (Some 0) None None) 0);
      reflexivity.
  - apply (zero_height_ratio (settings_of None (Some 0) None None) 0);
      reflexivity.
Defined.

(** C4, as stated, fails at [{width: 0, height: 0}]: [0 / 0] is NaN, NaN is
    falsy, the ratio is the default 1.77 and the aspect-ratio part is 1
    point, not 0.5; and at [{width: 640, height: 0}] the quotient is not NaN
    but Infinity. *)
Lemma zero_height_is_not_always_standard :
  let s := settings_of (Some 0) (Some 0) None None in
  aspectRatio s = None /\ height s = Some 0
  /\ is_nan (JS.div (width s) (height s)) = true
  /\ JS.truthy (JS.div (width s) (height s)) = false
  /\ ratioOf s = 1.77
  /\ aspectRatioScore (ratioOf s) (0, []) = (1, ["Widescreen (16:9)"])
  /\ aspectRatioScore (ratioOf s) (0, []) <> (0.5, ["Standard Aspect Ratio"])
  /\ is_nan (JS.div (Some 640) (Some 0)) = false.
Proof.
  cbv zeta. repeat split.
  intros H. apply (f_equal snd) in H. vm_compute in H. discriminate H.
Qed.


(** * Further properties of the code *)

(** ** The range of the function *)

Ltac pick_settings h f r :=
  exists (settings_of None (Some h) (Some f) (Some r)); run_call; reflexivity.

(** X1: the cap does nothing either.  Before the clamp the score is at most
    10, so [Math.min(10, score)] and [Math.max(1, score)] both return the
    score they are given. *)
Theorem clamp_is_identity (s : CameraSettings) :
  (fst (accumulate s) <=? 10) = true
  /\ JS.Math_min [10; fst (accumulate s)] = fst (accumulate s)
  /\ clamp (fst (accumulate s)) = fst (accumulate s).
Proof.
  unfold_body. split_comparisons s.
  all: repeat split.
Qed.

(** X2: the function returns one of fifteen scores, the multiples of 0.5
    from 2.5 to 10.0 without 8.0, and every one of them is returned for
    some settings. *)
Theorem score_range_is_exact :
  (forall s, returns s (fun r => In (score r) possibleScores))
  /\ (forall s, ~ returns s (fun r => score r = "8.0"))
  /\ (forall text, In text possibleScores ->
        exists s, returns s (fun r => score r = text)).
Proof.
  split; [| split].
  - intros s. unfold_body. split_comparisons s.
    all: run_call; cbn; tauto.
  - intros s (r & Hr & Hs). revert Hr. unfold_body. split_comparisons s.
    all: vm_compute; intros Hr; injection Hr as <-; discriminate Hs.
  - intros text Hin. cbn in Hin.
    repeat (destruct Hin as [<- | Hin]); [.. | contradiction].
    + pick_settings 240 15 1.33.
    + pick_settings 240 15 1.77.
    + pick_settings 240 30 1.33.
    + pick_settings 240 30 1.77.
    + pick_settings 240 60 1.33.
    + pick_settings 240 60 1.77.
    + pick_settings 480 60 1.33.
    + pick_settings 480 60 1.77.
    + pick_settings 720 30 1.77.
    + pick_settings 720 60 1.33.
    + pick_settings 720 60 1.77.
    + pick_settings 1080 30 1.33.
    + pick_settings 1080 30 1.77.
    + pick_settings 1080 60 1.33.
    + pick_settings 1080 60 1.77.
Qed.

(** Goals made of equations between closed strings or lists of strings. *)
Ltac settle_strings :=
  repeat match goal with
    | |- _ /\ _ => split
    | |- _ <-> _ => split
    | |- _ -> _ => intro
    | H : _ \/ _ |- _ => destruct H
    | H : _ /\ _ |- _ => destruct H
    end;
  first [ discriminate
        | reflexivity
        | left; reflexivity
        | right; reflexivity
        | cbn; tauto ].

(** X3: the score is exact.  Read back, the returned string is precisely
    the number the double holds ([toFixed(1)] rounds nothing away), and that
    number is a whole number of halves. *)
Theorem score_text_is_exact (s : CameraSettings) :
  returns s (fun r =>
    exists q x n,
      Spec.number_of (score r) = Some q
      /\ exact (clamp (fst (accumulate s))) = Some x
      /\ (q == x)%Q
      /\ (q == n # 2)%Q).
Proof.
  unfold_body. split_comparisons s.
  all: run_call.
  all: match goal with
       | |- exists q x n, Spec.number_of ?text = _ /\ exact ?d = _ /\ _ =>
           let q := eval vm_compute in (Spec.number_of text) in
           let x := eval vm_compute in (exact d) in
           match q with
           | Some ?q' =>
               match x with
               | Some ?x' =>
                   let n := eval vm_compute in
                              (2 * Qnum q' / Zpos (Qden q'))%Z in
                   exists q', x', n
               end
           end
       end.
  all: repeat split; vm_compute; reflexivity.
Qed.

(** X4: the detail list accounts for the score.  The points that go with
    the listed details add up to exactly the returned score. *)
Theorem details_add_up (s : CameraSettings) :
  returns s (fun r =>
    exists q, Spec.number_of (score r) = Some q
              /\ (q == pointsTotal (details r))%Q).
Proof.
  unfold_body. split_comparisons s.
  all: run_call; read_score; vm_compute; reflexivity.
Qed.

(** X5: "Poor" is returned in one situation only: height below 480 (or
    missing), frame rate below 28 and a ratio off 16:9, which is also the
    only way to score 2.5. *)
Theorem poor_is_the_lowest_case (s : CameraSettings) :
  returns s (fun r =>
    (label r = "Poor" <->
     details r = ["Low Resolution"; "Low Frame Rate";
                  "Standard Aspect Ratio"])
    /\ (label r = "Poor" <-> score r = "2.5")).
Proof.
  unfold_body. split_comparisons s.
  all: run_call; cbn [label details score]; settle_strings.
Qed.

(** X6: the colour of the score circle against the label.  Green goes with
    "Good" and "Excellent" and with nothing else; red is shown for "Poor"
    and for a "Fair" below 4; amber for a "Fair" from 4 on and for
    "Average".  So "Fair" comes in two colours: red at 3.5, amber at 4.0. *)
Theorem colour_against_label (s : CameraSettings) :
  returns s (fun r =>
    exists colour,
      View.scoreColor (score r) = Some colour
      /\ (colour = "#10b981" <-> label r = "Excellent" \/ label r = "Good")
      /\ (colour = "#ef4444" -> label r = "Poor" \/ label r = "Fair")
      /\ (colour = "#f59e0b" -> label r = "Fair" \/ label r = "Average"))
  /\ returns (settings_of None (Some 240) (Some 30) (Some 1.33))
       (fun r => label r = "Fair"
                 /\ View.scoreColor (score r) = Some "#ef4444")
  /\ returns (settings_of None (Some 240) (Some 30) (Some 1.77))
       (fun r => label r = "Fair"
                 /\ View.scoreColor (score r) = Some "#f59e0b").
Proof.
  split; [| split; run_call; split; reflexivity].
  unfold_body. split_comparisons s.
  all: run_call.
  all: match goal with
       | |- exists colour, View.scoreColor ?text = _ /\ _ =>
           let c := eval vm_compute in (View.scoreColor text) in
           match c with
           | Some ?c' => exists c'; split; [vm_compute; reflexivity |]
           end
       end.
  all: cbn [label]; settle_strings.
Qed.

(** ** The order of doubles *)

Section OrderFacts.

Lemma SFleb_finite (s1 s2 : bool) (m1 m2 : positive) (e1 e2 : Z) :
  SFleb (S754_finite s1 m1 e1) (S754_finite s2 m2 e2) = true <->
  match s1, s2 with
  | true, false => True
  | false, true => False
  | false, false => (e1 < e2 \/ e1 = e2 /\ Pos.le m1 m2)%Z
  | true, true => (e2 < e1 \/ e1 = e2 /\ Pos.le m2 m1)%Z
  end.
Proof.
  unfold SFleb, SFcompare.
  change (Pos.compare_cont Eq m1 m2) with (Pos.compare m1 m2).
  destruct s1, s2; try (split; [trivial | reflexivity]);
    try (split; [discriminate | contradiction]).
  all: destruct (Z.compare_spec e1 e2) as [He | He | He];
    destruct (Pos.compare_spec m1 m2) as [Hm | Hm | Hm]; cbn;
    split; intros H; try reflexivity; try discriminate H; lia.
Qed.

Lemma SFleb_trans (a b c : spec_float) :
  SFleb a b = true -> SFleb b c = true -> SFleb a c = true.
Proof.
  destruct a as [sa | sa | | sa ma ea], b as [sb | sb | | sb mb eb],
    c as [sc | sc | | sc mc ec]; try discriminate; try reflexivity.
  all: try (destruct sa, sb, sc; (discriminate || reflexivity)).
  all: try (destruct sa, sb; (discriminate || reflexivity)).
  all: try (destruct sa, sc; (discriminate || reflexivity)).
  all: try (destruct sb, sc; (discriminate || reflexivity)).
  rewrite !SFleb_finite. destruct sa, sb, sc; try tauto; lia.
Qed.

Lemma leb_trans (a b c : float) :
  (a <=? b) = true -> (b <=? c) = true -> (a <=? c) = true.
Proof.
  rewrite !FloatAxioms.leb_spec. apply SFleb_trans.
Qed.

(** The left operand of a comparison that holds is not NaN. *)
Lemma leb_not_nan (a b : float) : (a <=? b) = true -> is_nan a = false.
Proof.
  unfold is_nan. rewrite FloatAxioms.leb_spec, FloatAxioms.eqb_spec.
  destruct (Prim2SF a) as [s | s | | s m e]; try discriminate; intros _.
  - reflexivity.
  - destruct s; reflexivity.
  - now rewrite SFeqb_finite_refl.
Qed.

(** Reaching a positive threshold through [v || d]: a larger number behind
    [||] reaches it as well. *)
Lemma or_else_monotone (x y d c : float) :
  (c <=? 0) = false -> JS.truthy x = true -> (x <=? y) = true ->
  (c <=? JS.or_else (Some x) d) = true ->
  (c <=? JS.or_else (Some y) d) = true.
Proof.
  intros Hc Hx Hxy. unfold JS.or_else at 1. rewrite Hx. intros Hcx.
  pose proof (leb_trans c x y Hcx Hxy) as Hcy.
  now rewrite (or_else_keeps y d c Hc Hcy).
Qed.

(** A given aspect ratio is the ratio, whatever width and height are. *)
Lemma ratioOf_given (s : CameraSettings) :
  JS.ToBoolean (aspectRatio s) = true ->
  ratioOf s = JS.ToNumber (aspectRatio s).
Proof.
  unfold ratioOf, JS.ToBoolean, JS.or_else.
  destruct (aspectRatio s) as [r |]; [| discriminate].
  intros Hr. cbn [JS.ToNumber]. now rewrite !Hr.
Qed.

(** The frame rate in use is never 0 or NaN, and neither is the ratio. *)
Lemma or_else_truthy (v : JS.value) (d : float) :
  JS.truthy d = true -> JS.truthy (JS.or_else v d) = true.
Proof.
  intros Hd. unfold JS.or_else.
  destruct v as [x |]; [| exact Hd].
  now destruct (JS.truthy x) eqn:Hx.
Qed.

End OrderFacts.

(** ** What the labels require *)

(** X7: "Excellent" is only returned with the bonus, that is for a height of
    at least 1080 at 28 frames per second or more; and whoever gets the bonus
    is labelled "Good" or "Excellent". *)
Theorem excellent_needs_the_bonus (s : CameraSettings) :
  returns s (fun r =>
    (label r = "Excellent" ->
       Spec.at_least (height s) 1080 = true
       /\ (28 <=? fpsOf s) = true
       /\ In "Premium Quality Bonus" (details r))
    /\ (In "Premium Quality Bonus" (details r) ->
          label r = "Excellent" \/ label r = "Good")).
Proof.
  assert (Hord : (58 <=? fpsOf s) = true -> (28 <=? fpsOf s) = true)
    by (apply leb_trans; reflexivity).
  revert Hord.
  to_code_conditions s. unfold_body. split_comparisons s.
  all: intros Hord; try (specialize (Hord eq_refl); discriminate Hord).
  all: run_call; cbn [label details In]; settle_strings.
Qed.

(** ** More of the same never scores lower *)

Ltac unfold_values :=
  unfold scoreValue, calculateCameraScore, accumulate, beforeBonus,
    qualityBonus, aspectRatioScore, frameRateScore, resolutionScore,
    JS.ge, JS.lt, JS.Math_abs.

Ltac compare_values :=
  match goal with
  | |- exists q1 q2, ?a = Some q1 /\ ?b = Some q2 /\ _ =>
      let va := eval vm_compute in a in
      let vb := eval vm_compute in b in
      match va with
      | Some ?qa =>
          match vb with
          | Some ?qb =>
              exists qa, qb;
              split; [vm_compute; reflexivity |];
              split; [vm_compute; reflexivity | Qle_by_computation]
          end
      end
  end.

Ltac drop_impossible H :=
  try (specialize (H eq_refl); discriminate H).

(** X8: with everything else the same, a higher frame rate never gives a
    lower score, provided the lower rate is not 0 (a reported 0 is replaced
    by 30). *)
Theorem faster_never_scores_lower (s : CameraSettings) (f1 f2 : float) :
  is_zero f1 = false -> (f1 <=? f2) = true ->
  exists q1 q2,
    scoreValue (withFrameRate s f1) = Some q1
    /\ scoreValue (withFrameRate s f2) = Some q2
    /\ (q1 <= q2)%Q.
Proof.
  intros Hz Hle.
  assert (Ht : JS.truthy f1 = true).
  { unfold JS.truthy. now rewrite (leb_not_nan f1 f2 Hle), Hz. }
  pose proof (or_else_monotone f1 f2 30 58 eq_refl Ht Hle) as H58.
  pose proof (or_else_monotone f1 f2 30 28 eq_refl Ht Hle) as H28.
  change (JS.or_else (Some f1) 30) with (fpsOf (withFrameRate s f1)) in H58, H28.
  change (JS.or_else (Some f2) 30) with (fpsOf (withFrameRate s f2)) in H58, H28.
  revert H58 H28. clear Hz Hle Ht.
  unfold_values.
  change (resolutionOf (withFrameRate s f1)) with (resolutionOf s).
  change (resolutionOf (withFrameRate s f2)) with (resolutionOf s).
  change (ratioOf (withFrameRate s f1)) with (ratioOf s).
  change (ratioOf (withFrameRate s f2)) with (ratioOf s).
  generalize (resolutionOf s) (ratioOf s)
    (fpsOf (withFrameRate s f1)) (fpsOf (withFrameRate s f2)).
  intros resolution ratio slow fast.
  destruct (58 <=? slow), (58 <=? fast); intros H58; drop_impossible H58.
  all: destruct (28 <=? slow), (28 <=? fast); intros H28; drop_impossible H28.
  all: destruct (1080 <=? resolution), (720 <=? resolution),
         (480 <=? resolution), (abs (ratio - 1.77) <? 0.1).
  all: compare_values.
Qed.

(** At 1280x720 a non-zero rate of 10 scores below a rate of 60. *)
Lemma faster_never_scores_lower_witness :
  exists q1 q2,
    scoreValue (withFrameRate (settings_of (Some 1280) (Some 720) None None) 10)
      = Some q1
    /\ scoreValue
         (withFrameRate (settings_of (Some 1280) (Some 720) None None) 60)
       = Some q2
    /\ (q1 <= q2)%Q.
Proof.
  apply (faster_never_scores_lower
           (settings_of (Some 1280) (Some 720) None None) 10 60);
    reflexivity.
Defined.

(** X9: with an aspect ratio given and everything else the same, a greater
    height never gives a lower score.  Without a given ratio it can: the
    ratio is then [width / height], and 1280x800 scores below 1280x720. *)
Theorem taller_never_scores_lower (s : CameraSettings) (h1 h2 : float) :
  JS.ToBoolean (aspectRatio s) = true -> (h1 <=? h2) = true ->
  (exists q1 q2,
      scoreValue (withHeight s h1) = Some q1
      /\ scoreValue (withHeight s h2) = Some q2
      /\ (q1 <= q2)%Q)
  /\ option_map score
       (calculateCameraScore (settings_of (Some 1280) (Some 720) None None))
     = Some "6.5"
  /\ option_map score
       (calculateCameraScore (settings_of (Some 1280) (Some 800) None None))
     = Some "6.0".
Proof.
  intros Hr Hle. split; [| split; reflexivity].
  assert (Hstep : forall c, (c <=? 0) = false ->
            (c <=? resolutionOf (withHeight s h1)) = true ->
            (c <=? resolutionOf (withHeight s h2)) = true).
  { intros c Hc H1.
    change ((c <=? resolutionOf (withHeight s h1)) = true)
      with (JS.ge (JS.or_else (Some h1) 0) c = true) in H1.
    change (JS.ge (JS.or_else (Some h2) 0) c = true).
    rewrite or_else_at_least in H1 |- * by assumption.
    exact (leb_trans c h1 h2 H1 Hle). }
  pose proof (Hstep 1080 eq_refl) as H1080.
  pose proof (Hstep 720 eq_refl) as H720.
  pose proof (Hstep 480 eq_refl) as H480.
  revert H1080 H720 H480. clear Hstep Hle.
  unfold_values.
  rewrite (ratioOf_given (withHeight s h1) Hr).
  rewrite (ratioOf_given (withHeight s h2) Hr).
  change (aspectRatio (withHeight s h1)) with (aspectRatio s).
  change (aspectRatio (withHeight s h2)) with (aspectRatio s).
  change (fpsOf (withHeight s h1)) with (fpsOf s).
  change (fpsOf (withHeight s h2)) with (fpsOf s).
  generalize (JS.ToNumber (aspectRatio s)) (fpsOf s)
    (resolutionOf (withHeight s h1)) (resolutionOf (withHeight s h2)).
  intros ratio fps low high.
  destruct (1080 <=? low), (1080 <=? high); intros H1080;
    drop_impossible H1080.
  all: destruct (720 <=? low), (720 <=? high); intros H720;
    drop_impossible H720.
  all: destruct (480 <=? low), (480 <=? high); intros H480;
    drop_impossible H480.
  all: destruct (58 <=? fps), (28 <=? fps), (abs (ratio - 1.77) <? 0.1).
  all: compare_values.
Qed.

(** With the ratio given as 1.777, a height of 720 scores below 1080. *)
Lemma taller_never_scores_lower_witness :
  (exists q1 q2,
      scoreValue
        (withHeight (settings_of (Some 1280) None None (Some 1.777)) 720)
      = Some q1
      /\ scoreValue
           (withHeight (settings_of (Some 1280) None None (Some 1.777)) 1080)
         = Some q2
      /\ (q1 <= q2)%Q)
  /\ option_map score
       (calculateCameraScore (settings_of (Some 1280) (Some 720) None None))
     = Some "6.5"
  /\ option_map score
       (calculateCameraScore (settings_of (Some 1280) (Some 800) None None))
     = Some "6.0".
Proof.
  apply (taller_never_scores_lower
           (settings_of (Some 1280) None None (Some 1.777)) 720 1080);
    reflexivity.
Defined.

(** X10: with an aspect ratio given, the width plays no part: score, label
    and details are the same for every width, a missing one included. *)
Theorem width_is_only_a_fallback (s : CameraSettings) (w : JS.value) :
  JS.ToBoolean (aspectRatio s) = true ->
  calculateCameraScore (withWidth s w) = calculateCameraScore s.
Proof.
  intros Hr.
  unfold calculateCameraScore, accumulate, beforeBonus.
  rewrite (ratioOf_given (withWidth s w) Hr), (ratioOf_given s Hr).
  reflexivity.
Qed.

(** Full HD at a given ratio of 1.777, with the width taken away. *)
Lemma width_is_only_a_fallback_witness :
  calculateCameraScore
    (withWidth (settings_of (Some 1920) (Some 1080) (Some 60) (Some 1.777))
               None)
  = calculateCameraScore
      (settings_of (Some 1920) (Some 1080) (Some 60) (Some 1.777)).
Proof.
  apply (width_is_only_a_fallback
           (settings_of (Some 1920) (Some 1080) (Some 60) (Some 1.777)) None).
  reflexivity.
Defined.

(** ** The displayed frame rate and ratio *)

(** The first character of a decimal numeral is a digit. *)
Lemma digits_head (n : Z) :
  exists c rest, JS.digits n = String c rest /\ c <> "N"%char.
Proof.
  unfold JS.digits.
  destruct (N.to_uint (Z.to_N n)); cbn; eexists; eexists;
    (split; [reflexivity | discriminate]).
Qed.

(** Stripping trailing zeros keeps the first character. *)
Lemma strip_head (s : string) (c : ascii) (rest : string) :
  NumberText.strip s = String c rest -> exists rest', s = String c rest'.
Proof.
  destruct s as [| c0 s0]; [discriminate |].
  cbn. destruct (NumberText.strip s0).
  - destruct (c0 =? "0")%char; [discriminate |].
    intros [= <- _]. now exists s0.
  - intros [= <- _]. now exists s0.
Qed.

(** The exponent notation starts with a digit. *)
Lemma exponent_notation_head (m : positive) (e : Z) :
  exists c rest,
    NumberText.exponent_notation m e = String c rest /\ c <> "N"%char.
Proof.
  unfold NumberText.exponent_notation. cbv zeta.
  match goal with
  | |- context [NumberText.strip (JS.digits ?v)] =>
      destruct (digits_head v) as (c & rest & Hall & Hc);
      destruct (NumberText.strip (JS.digits v)) as [| c' kept] eqn:Hstrip
  end.
  - rewrite Hall. now exists c, rest.
  - destruct (strip_head _ _ _ Hstrip) as (rest' & Hhead).
    rewrite Hall in Hhead. injection Hhead as <- _.
    destruct kept; eexists; eexists; (split; [reflexivity | exact Hc]).
Qed.

(** [toFixed(0)] never writes "N/A". *)
Lemma toFixedAll_0_not_NA (x : float) :
  (NumberText.toFixedAll x 0 ++ " fps")%string <> "N/A fps".
Proof.
  unfold NumberText.toFixedAll.
  destruct (Prim2SF x) as [s | s | | s m e].
  - discriminate.
  - destruct s; discriminate.
  - discriminate.
  - cbv zeta. destruct s; [discriminate |].
    destruct (_ <=? _)%Z.
    + destruct (exponent_notation_head m e) as (c & rest & -> & Hc).
      cbn. intros [= Heq]. now apply Hc.
    + unfold JS.place_point.
      match goal with
      | |- context [JS.digits ?n] =>
          destruct (digits_head n) as (c & rest & -> & Hc)
      end.
      cbn. intros [= Heq]. now apply Hc.
Qed.

(** Where [JS.toFixed] is defined, the full method returns the same text. *)
Lemma toFixedAll_agrees (x : float) (f : nat) (text : string) :
  JS.toFixed x f = Some text -> NumberText.toFixedAll x f = text.
Proof.
  unfold JS.toFixed, NumberText.toFixedAll.
  destruct (Prim2SF x) as [s | s | | s m e].
  - intros [= <-]. reflexivity.
  - intros [= <-]. reflexivity.
  - intros [= <-]. reflexivity.
  - cbv zeta. destruct (_ <=? _)%Z; [discriminate |].
    intros [= <-]. reflexivity.
Qed.

(** X11: the frame rate in use is never 0 or NaN, so the "N/A" alternative
    of the frame-rate metric is never taken: for every input the metric is
    [fps.toFixed(0)] followed by " fps", and never "N/A fps"; a rate of
    [1e21] shows as "1e+21 fps", one of 29.97 as "30 fps". *)
Theorem frame_rate_metric_is_never_NA (s : CameraSettings) :
  JS.truthy (fpsOf s) = true
  /\ frameRateMetric s
     = (NumberText.toFixedAll (fpsOf s) 0 ++ " fps")%string
  /\ frameRateMetric s <> "N/A fps"
  /\ frameRateMetric (settings_of None None (Some 1e21) None) = "1e+21 fps"
  /\ frameRateMetric (settings_of None None (Some 29.97) None) = "30 fps".
Proof.
  assert (Ht : JS.truthy (fpsOf s) = true)
    by (apply or_else_truthy; reflexivity).
  assert (Heq : frameRateMetric s
                = (NumberText.toFixedAll (fpsOf s) 0 ++ " fps")%string)
    by (unfold frameRateMetric; cbv zeta; now rewrite Ht).
  split; [exact Ht |]. split; [exact Heq |].
  split; [| split; vm_compute; reflexivity].
  rewrite Heq. apply toFixedAll_0_not_NA.
Qed.

(** The metric of the earlier definition, where that is defined, is the
    full one. *)
Lemma metricsFrameRate_agrees (s : CameraSettings) (text : string) :
  metricsFrameRate s = Some text -> frameRateMetric s = text.
Proof.
  unfold metricsFrameRate, frameRateMetric. cbv zeta.
  destruct (JS.truthy (fpsOf s)).
  - destruct (JS.toFixed (fpsOf s) 0) as [t |] eqn:Hfix; [| discriminate].
    cbn [option_map]. intros [= <-].
    now rewrite (toFixedAll_agrees _ _ _ Hfix).
  - now intros [= <-].
Qed.

(** X12: a frame rate that is missing, 0 or NaN is displayed as "30 fps"
    and graded as "Standard Motion (30fps)". *)
Theorem missing_frame_rate_shows_30 (s : CameraSettings) :
  JS.ToBoolean (frameRate s) = false ->
  metricsFrameRate s = Some "30 fps"
  /\ returns s (fun r => In "Standard Motion (30fps)" (details r)).
Proof.
  intros Hf.
  assert (Hfps : fpsOf s = 30).
  { unfold fpsOf, JS.or_else. unfold JS.ToBoolean in Hf.
    destruct (frameRate s) as [f |]; [now rewrite Hf | reflexivity]. }
  split.
  - unfold metricsFrameRate. now rewrite Hfps.
  - unfold_body. rewrite Hfps.
    change (58 <=? 30) with false. change (28 <=? 30) with true.
    generalize (resolutionOf s) (ratioOf s). intros resolution ratio.
    destruct (1080 <=? resolution), (720 <=? resolution),
      (480 <=? resolution), (abs (ratio - 1.77) <? 0.1).
    all: run_call; cbn; tauto.
Qed.

(** A reported frame rate of 0. *)
Lemma missing_frame_rate_shows_30_witness :
  metricsFrameRate (settings_of (Some 640) (Some 480) (Some 0) None)
  = Some "30 fps"
  /\ returns (settings_of (Some 640) (Some 480) (Some 0) None)
       (fun r => In "Standard Motion (30fps)" (details r)).
Proof.
  apply (missing_frame_rate_shows_30
           (settings_of (Some 640) (Some 480) (Some 0) None)).
  reflexivity.
Defined.

(** X13: without a usable aspect ratio and without a usable quotient
    [width / height] (a missing, 0 or NaN result), the ratio displayed is
    "1.77" and the "Widescreen (16:9)" point is given. *)
Theorem no_ratio_shows_default (s : CameraSettings) :
  JS.ToBoolean (aspectRatio s) = false ->
  JS.truthy (JS.div (width s) (height s)) = false ->
  metricsAspectRatio s = Some "1.77"
  /\ returns s (fun r => In "Widescreen (16:9)" (details r)).
Proof.
  intros Hr Hq.
  assert (Hratio : ratioOf s = 1.77).
  { unfold ratioOf. unfold JS.ToBoolean in Hr.
    assert (Hin : JS.or_else (aspectRatio s) (JS.div (width s) (height s))
                  = JS.div (width s) (height s)).
    { unfold JS.or_else. destruct (aspectRatio s) as [r |];
        [now rewrite Hr | reflexivity]. }
    rewrite Hin. unfold JS.or_else. now rewrite Hq. }
  split.
  - unfold metricsAspectRatio. now rewrite Hratio.
  - unfold_body. rewrite Hratio.
    change (abs (1.77 - 1.77) <? 0.1) with true.
    generalize (resolutionOf s) (fpsOf s). intros resolution fps.
    destruct (1080 <=? resolution), (720 <=? resolution),
      (480 <=? resolution), (58 <=? fps), (28 <=? fps).
    all: run_call; cbn; tauto.
Qed.

(** Settings with nothing in them. *)
Lemma no_ratio_shows_default_witness :
  metricsAspectRatio (settings_of None None None None) = Some "1.77"
  /\ returns (settings_of None None None None)
       (fun r => In "Widescreen (16:9)" (details r)).
Proof.
  apply (no_ratio_shows_default (settings_of None None None None));
    reflexivity.
Defined.

(** X14: division by zero shows.  With no usable aspect ratio, a height of
    0 and a width that is neither missing, 0 nor NaN, the ratio displayed is
    "Infinity" or "-Infinity" and the entry is "Standard Aspect Ratio". *)
Theorem zero_height_shows_infinity (s : CameraSettings) (h : float) :
  JS.ToBoolean (aspectRatio s) = false ->
  height s = Some h -> is_zero h = true ->
  JS.ToBoolean (width s) = true ->
  (metricsAspectRatio s = Some "Infinity"
   \/ metricsAspectRatio s = Some "-Infinity")
  /\ returns s (fun r => In "Standard Aspect Ratio" (details r)).
Proof.
  intros Hr Hh Hz Hw.
  assert (Hratio : ratioOf s = infinity \/ ratioOf s = neg_infinity).
  { unfold ratioOf. unfold JS.ToBoolean in Hr.
    assert (Hin : JS.or_else (aspectRatio s) (JS.div (width s) (height s))
                  = JS.div (width s) (height s)).
    { unfold JS.or_else. destruct (aspectRatio s) as [r |];
        [now rewrite Hr | reflexivity]. }
    rewrite Hin. unfold JS.div. rewrite Hh. cbn [JS.ToNumber].
    pose proof (div_by_zero (JS.ToNumber (width s)) h Hz) as Hdiv.
    rewrite <- ToBoolean_ToNumber, Hw in Hdiv.
    destruct Hdiv as [-> | ->]; [left | right]; reflexivity. }
  split.
  - unfold metricsAspectRatio.
    destruct Hratio as [-> | ->]; [left | right]; reflexivity.
  - unfold_body.
    assert (Hwide : (abs (ratioOf s - 1.77) <? 0.1) = false)
      by (destruct Hratio as [-> | ->]; reflexivity).
    rewrite Hwide.
    generalize (resolutionOf s) (fpsOf s). intros resolution fps.
    destruct (1080 <=? resolution), (720 <=? resolution),
      (480 <=? resolution), (58 <=? fps), (28 <=? fps).
    all: run_call; cbn; tauto.
Qed.

(** A width of 640 over a height of 0. *)
Lemma zero_height_shows_infinity_witness :
  (metricsAspectRatio (settings_of (Some 640) (Some 0) None None)
   = Some "Infinity"
   \/ metricsAspectRatio (settings_of (Some 640) (Some 0) None None)
      = Some "-Infinity")
  /\ returns (settings_of (Some 640) (Some 0) None None)
       (fun r => In "Standard Aspect Ratio" (details r)).
Proof.
  apply (zero_height_shows_infinity
           (settings_of (Some 640) (Some 0) None None) 0);
    reflexivity.
Defined.
